(** * The decorator-driven validation registry of [src/app.ts]

    A shallow embedding of the part of the script that carries behaviour:
    the property decorators [Required] and [PositiveNumber], which fill the
    table [registeredValidators]; the function [validate], which checks an
    object against that table; the [price] setter and [getPriceWithTax]
    of [Product]; and the submit handler of the course form.

    Conventions of the embedding
    - a JavaScript [number] is an IEEE 754 double, written with the
      inductive [spec_float] of the Standard Library; [x > 0] is [SFltb];
    - the conversion of a string to a number ([+text], [text > 0]) is a
      builtin of the host and is taken as the section variable
      [StringToNumber];
    - an abrupt completion (a thrown exception) is the constructor [Throw]
      of [completion], and code that may throw lives in that monad;
    - [registeredValidators], which is only ever indexed by a class name, is
      a [gmap]; the per-class configuration object, which [validate] walks
      with [for..in], is an ordered property list;
    - property values are the primitive values [undefined], [null],
      booleans, numbers, strings and symbols.  Object-valued properties,
      accessors, bigints and the members inherited from [Object.prototype]
      are outside the model;
    - an [object] is an instance or a prototype of a class, so that
      [o.constructor.name] is defined: [null], [undefined] and objects
      without a constructor, on which that read throws, are outside the
      model. *)

From Stdlib Require Import ZArith NArith String Ascii List Bool Lia.
From Stdlib Require Import Floats.SpecFloat.
From stdpp Require Import gmap strings list.

Local Open Scope string_scope.

(** ** Numbers *)

Definition number : Type := spec_float.

(** The double nearest to an integer literal. *)
Definition double (z : Z) : number := binary_normalize 53 1024 z 0 false.

(** [+0], the value of the literal [0]. *)
Definition zero : number := S754_zero false.

(** The mathematical sign of a double: [None] for NaN. *)
Definition sign_of (x : number) : option comparison :=
  match x with
  | S754_nan => None
  | S754_zero _ => Some Eq
  | S754_infinity s | S754_finite s _ _ => Some (if s then Lt else Gt)
  end.

(** ** Values and completions *)

Inductive value : Type :=
  | VUndefined
  | VNull
  | VBoolean (b : bool)
  | VNumber (n : number)
  | VString (s : string)
  | VSymbol (description : string).

Inductive exn : Type :=
  | TypeError
  | Error (message : string).

Inductive completion (A : Type) : Type :=
  | Normal (a : A)
  | Throw (e : exn).

Arguments Normal {A} a.
Arguments Throw {A} e.

#[global] Instance completion_ret : MRet completion := fun A a => Normal a.

#[global] Instance completion_bind : MBind completion := fun A B k c =>
  match c with
  | Normal a => k a
  | Throw e => Throw e
  end.

(** [!!v]: the falsy values are [undefined], [null], [false], [+0], [-0],
    [NaN] and the empty string. *)
Definition ToBoolean (v : value) : bool :=
  match v with
  | VUndefined | VNull => false
  | VBoolean b => b
  | VNumber (S754_zero _) | VNumber S754_nan => false
  | VNumber _ => true
  | VString s => negb (s =? "")
  | VSymbol _ => true
  end.

(** ** Property lists: objects that are enumerated *)

Module PropertyList.

Definition t (V : Type) : Type := list (string * V).

Section Ops.
Context {V : Type}.

(** [o[k]] *)
Fixpoint get (k : string) (o : t V) : option V :=
  match o with
  | [] => None
  | (k', v) :: o' => if k =? k' then Some v else get k o'
  end.

(** [o[k] = v]: an existing property keeps its place, a new one is
    created last. *)
Fixpoint set (k : string) (v : V) (o : t V) : t V :=
  match o with
  | [] => [(k, v)]
  | (k', v') :: o' =>
      if k =? k' then (k, v) :: o' else (k', v') :: set k v o'
  end.

Definition is_digit (c : ascii) : bool :=
  (48 <=? N_of_ascii c)%N && (N_of_ascii c <=? 57)%N.

Fixpoint digits_value (s : string) (acc : N) : option N :=
  match s with
  | EmptyString => Some acc
  | String c s' =>
      if is_digit c
      then digits_value s' (10 * acc + (N_of_ascii c - 48))%N
      else None
  end.

(** A key is an array index when it is the canonical decimal spelling
    of an integer below [2^32 - 1]. *)
Definition array_index (k : string) : option N :=
  match k with
  | EmptyString => None
  | String c rest =>
      if (N_of_ascii c =? 48)%N && negb (rest =? "") then None
      else match digits_value k 0 with
           | Some n => if (n <? 4294967295)%N then Some n else None
           | None => None
           end
  end.

Fixpoint insert_index (i : N) (k : string) (l : list (N * string))
  : list (N * string) :=
  match l with
  | [] => [(i, k)]
  | (j, k') :: l' =>
      if (i <? j)%N then (i, k) :: l else (j, k') :: insert_index i k l'
  end.

Fixpoint index_keys (ks : list string) : list (N * string) :=
  match ks with
  | [] => []
  | k :: ks' =>
      match array_index k with
      | Some i => insert_index i k (index_keys ks')
      | None => index_keys ks'
      end
  end.

Definition is_index (k : string) : bool :=
  match array_index k with Some _ => true | None => false end.

(** The order in which [for..in] and object spread visit the own
    enumerable keys: array indices in ascending numeric order, then the
    other keys in order of creation. *)
Definition ownKeys (o : t V) : list string :=
  let ks := map fst o in
  map snd (index_keys ks) ++ List.filter (fun k => negb (is_index k)) ks.

(** One step of a spread: [acc[k] = o[k]]. *)
Definition copy_property (o : t V) (acc : t V) (k : string) : t V :=
  match get k o with
  | Some v => set k v acc
  | None => acc
  end.

(** [{...src}]: nothing is copied from [undefined]; the own properties
    of an object are created on the fresh object in key order. *)
Definition spread (src : option (t V)) : t V :=
  match src with
  | None => []
  | Some o => fold_left (copy_property o) (ownKeys o) []
  end.
End Ops.

End PropertyList.

(** ** Objects that are only read *)

(** A class instance or a class prototype: [o.constructor.name] and the
    properties read through [o[prop]]. *)
Record object : Type := {
  constructor_name : string;
  properties : gmap string value
}.

(** [o[prop]]: a missing property reads as [undefined]. *)
Definition Get (o : object) (prop : string) : value :=
  default VUndefined (properties o !! prop).

(** ** The validator table *)

(** [interface ValidatorConfig]: class name, then property name, then the
    names of the validators. *)
Abbreviation ClassConfig := (PropertyList.t (list string)).
Abbreviation ValidatorConfig := (gmap string ClassConfig).

(** [const registeredValidators: ValidatorConfig = {}] *)
Definition registeredValidators : ValidatorConfig := ∅.

(** [function Required(target, propName)], on the table [reg]. *)
Definition Required (target : object) (propName : string)
    (reg : ValidatorConfig) : ValidatorConfig :=
  <[constructor_name target :=
      PropertyList.set propName ["Required"]
        (PropertyList.spread (reg !! constructor_name target))]> reg.

(** [function PositiveNumber(target, propName)], on the table [reg]. *)
Definition PositiveNumber (target : object) (propName : string)
    (reg : ValidatorConfig) : ValidatorConfig :=
  <[constructor_name target :=
      PropertyList.set propName ["Positive"]
        (PropertyList.spread (reg !! constructor_name target))]> reg.

(** The validators held for a property of a class; none when the class
    or the property has no entry. *)
Definition rules_of (reg : ValidatorConfig) (className prop : string)
  : list string :=
  match reg !! className with
  | Some config => default [] (PropertyList.get prop config)
  | None => []
  end.

(** The two decorators as data, to speak about sequences of
    registrations. *)
Inductive decorator : Type := AtRequired | AtPositiveNumber.

Definition decorate (d : decorator)
  : object -> string -> ValidatorConfig -> ValidatorConfig :=
  match d with
  | AtRequired => Required
  | AtPositiveNumber => PositiveNumber
  end.

(** The validator name a decorator writes. *)
Definition rule_name (d : decorator) : string :=
  match d with
  | AtRequired => "Required"
  | AtPositiveNumber => "Positive"
  end.

(** Decorators run one after the other, each on the table the previous
    one left. *)
Definition decorate_all (ds : list (decorator * object * string))
    (reg : ValidatorConfig) : ValidatorConfig :=
  fold_left (fun r '(d, target, prop) => decorate d target prop r) ds reg.

(** ** Validation *)

Section Host.

(** The host's conversion of a string to a number. *)
Variable StringToNumber : string -> number.

Definition ToNumber (v : value) : completion number :=
  match v with
  | VUndefined => Normal S754_nan
  | VNull => Normal zero
  | VBoolean b => Normal (if b then double 1 else zero)
  | VNumber n => Normal n
  | VString s => Normal (StringToNumber s)
  | VSymbol _ => Throw TypeError
  end.

(** [v > 0]: the operand is converted to a number, which throws for a
    symbol, and NaN compares false. *)
Definition greater_than_zero (v : value) : completion bool :=
  n ← ToNumber v; mret (SFltb zero n).

(** [isValid && e]: [e] is evaluated only when [isValid] holds. *)
Definition and_then (isValid : bool) (e : completion bool)
  : completion bool :=
  if isValid then e else Normal false.

(** One turn of the inner loop: the [switch] on the validator name. *)
Definition apply_validator (obj : object) (prop : string)
    (isValid : bool) (validator : string) : completion bool :=
  if validator =? "Required"
  then and_then isValid (Normal (ToBoolean (Get obj prop)))
  else if validator =? "Positive"
  then and_then isValid (greater_than_zero (Get obj prop))
  else Normal isValid.

(** A loop whose body may throw. *)
Fixpoint for_each {A S : Type} (body : S -> A -> completion S)
    (l : list A) (s : S) : completion S :=
  match l with
  | [] => Normal s
  | a :: l' => s' ← body s a; for_each body l' s'
  end.

(** [function validate(obj)], reading the table [reg].  Every key the
    enumeration yields is a property of [objValidatorConfig], so
    [objValidatorConfig[prop]] is always an array there. *)
Definition validate (reg : ValidatorConfig) (obj : object)
  : completion bool :=
  match reg !! constructor_name obj with
  | None => Normal true
  | Some objValidatorConfig =>
      for_each
        (fun isValid prop =>
           for_each (apply_validator obj prop)
             (default [] (PropertyList.get prop objValidatorConfig))
             isValid)
        (PropertyList.ownKeys objValidatorConfig)
        true
  end.

End Host.

(** ** The classes of the script *)

(** [class Course]: [Course.prototype], on which the decorators run, and
    [new Course(t, p)]. *)
Definition Course_prototype : object :=
  {| constructor_name := "Course"; properties := ∅ |}.

Definition Course (t : string) (p : number) : object :=
  {| constructor_name := "Course";
     properties := <["price" := VNumber p]> (<["title" := VString t]> ∅) |}.

(** [class Printer], which no decorator of the table touches, and
    [new Printer()]. *)
Definition Printer : object :=
  {| constructor_name := "Printer";
     properties := <["message" := VString "This works!"]> ∅ |}.

(** The table once the class body of [Course] has been read: [@Required]
    on [title], then [@PositiveNumber] on [price]. *)
Definition Course_defined (reg : ValidatorConfig) : ValidatorConfig :=
  PositiveNumber Course_prototype "price"
    (Required Course_prototype "title" reg).

(** [class Product]: its two fields, its constructor and the [price]
    setter.  The setter returns its completion next to the object it
    leaves behind. *)
Record Product : Type := { title : string; _price : number }.

Definition new_Product (t : string) (p : number) : Product :=
  {| title := t; _price := p |}.

Definition set_price (val : number) (this : Product)
  : completion unit * Product :=
  if SFltb zero val
  then (Normal tt, {| title := title this; _price := val |})
  else (Throw (Error "Invalid price - must be positive"), this).

(** [getPriceWithTax(tax)]: [this._price * (1 + tax)], in doubles. *)
Definition getPriceWithTax (tax : number) (this : Product) : number :=
  SFmul 53 1024 (_price this) (SFadd 53 1024 (double 1) tax).

(** ** The submit handler of the course form *)

Inductive reaction : Type :=
  | Alert (message : string)
  | ConsoleLog (o : object).

Section Form.

Variable StringToNumber : string -> number.

(** The listener on ["submit"], given the text of the two inputs. *)
Definition submit (reg : ValidatorConfig) (titleText priceText : string)
  : completion reaction :=
  let title := titleText in
  price ← ToNumber StringToNumber (VString priceText);
  let createdCourse := Course title price in
  ok ← validate StringToNumber reg createdCourse;
  if negb ok
  then mret (Alert "Invalid input, do better!")
  else mret (ConsoleLog createdCourse).

End Form.

(** ** Vocabulary of the statements *)

Definition is_symbol (v : value) : bool :=
  match v with VSymbol _ => true | _ => false end.

(** A candidate instance holds concrete field values, as the instances the
    form builds do ([title: string], [price: number]): each of its
    properties is [undefined], [null], a boolean, a number or a string. *)
Definition Candidate (obj : object) : Prop :=
  map_Forall (fun _ v => is_symbol v = false) (properties obj).



Section Predicates.

Variable StringToNumber : string -> number.

(** What a validator name asks of a property of [obj]; a name [validate]
    does not know asks nothing, and a comparison that throws does not
    hold. *)
Definition holds (obj : object) (prop validator : string) : bool :=
  if validator =? "Required" then ToBoolean (Get obj prop)
  else if validator =? "Positive" then
    match greater_than_zero StringToNumber (Get obj prop) with
    | Normal b => b
    | Throw _ => false
    end
  else true.

(** The conjunction [validate] computes when nothing throws: every
    validator of every enumerated property holds. *)
Definition all_rules_hold (reg : ValidatorConfig) (obj : object) : bool :=
  match reg !! constructor_name obj with
  | None => true
  | Some config =>
      forallb
        (fun prop =>
           forallb (holds obj prop)
             (default [] (PropertyList.get prop config)))
        (PropertyList.ownKeys config)
  end.

End Predicates.

(** A conversion to evaluate the model with: the empty string reads as
    [+0], a string of decimal digits as the double nearest to that integer,
    any other string as NaN.  Hosts read more spellings than these. *)
Definition digits_to_number (s : string) : number :=
  match PropertyList.digits_value s 0 with
  | Some n => double (Z.of_N n)
  | None => S754_nan
  end.

(** ** Sequences of registrations *)

(** Whether a registration names the property [prop] of the class
    [className]. *)
Definition registers (className prop : string)
    (r : decorator * object * string) : bool :=
  (constructor_name (snd (fst r)) =? className) && (snd r =? prop).

(** The decorator of the last registration of a sequence that names
    [prop] of [className], if there is one. *)
Definition last_registration (className prop : string)
    (ds : list (decorator * object * string)) : option decorator :=
  fold_left
    (fun found r => if registers className prop r then Some (fst (fst r))
                    else found)
    ds None.

(** * Properties *)

(** ** Property lists *)

Module PropertyListFacts.
Import PropertyList.

Section Facts.
Context {V : Type}.
Implicit Types (k : string) (o : t V).

Lemma get_set_eq k (v : V) o : get k (set k v o) = Some v.
Proof.
  induction o as [|[k' v'] o IH]; simpl.
  - now rewrite String.eqb_refl.
  - destruct (k =? k') eqn:E; simpl; rewrite ?E, ?String.eqb_refl; auto.
Qed.

Lemma get_set_ne k k' (v : V) o :
  k <> k' -> get k' (set k v o) = get k' o.
Proof.
  intros Hne. assert (Hb : (k' =? k) = false).
  { apply String.eqb_neq. congruence. }
  induction o as [|[k0 v0] o IH]; simpl.
  - now rewrite Hb.
  - destruct (k =? k0) eqn:E; simpl.
    + apply String.eqb_eq in E. subst k0. now rewrite Hb.
    + now rewrite IH.
Qed.

Lemma get_in_keys k o : In k (map fst o) <-> get k o <> None.
Proof.
  induction o as [|[k' v'] o IH]; simpl.
  - tauto.
  - destruct (String.eqb_spec k k') as [->|Hne].
    + split; [discriminate | auto].
    + rewrite <- IH. split; [intros [?|?]; [congruence | auto] | auto].
Qed.

Lemma in_insert_index (x : N * string) i k l :
  In x (insert_index i k l) <-> x = (i, k) \/ In x l.
Proof.
  induction l as [|[j k'] l IH]; simpl.
  - intuition congruence.
  - destruct (i <? j)%N; simpl; rewrite ?IH; intuition congruence.
Qed.

Lemma in_index_keys k (ks : list string) :
  In k (map snd (index_keys ks)) <-> In k ks /\ is_index k = true.
Proof.
  unfold is_index. induction ks as [|k0 ks IH]; simpl.
  - tauto.
  - destruct (array_index k0) as [i|] eqn:E.
    + rewrite in_map_iff. split.
      * intros [[j k'] [Hk Hin]]. simpl in Hk. subst k'.
        apply in_insert_index in Hin. destruct Hin as [Heq|Hin].
        -- injection Heq as -> ->. rewrite E. auto.
        -- assert (In k (map snd (index_keys ks))) as Hk
             by (apply in_map_iff; now exists (j, k)).
           apply IH in Hk. tauto.
      * intros [[->|Hin] Hidx].
        -- exists (i, k). split; [reflexivity|].
           apply in_insert_index. auto.
        -- pose proof (proj2 IH (conj Hin Hidx)) as Hk.
           apply in_map_iff in Hk. destruct Hk as [[j k'] [Hk Hin']].
           exists (j, k'). split; [assumption|].
           apply in_insert_index. auto.
    + rewrite IH. split.
      * tauto.
      * intros [[->|Hin] Hidx]; [now rewrite E in Hidx | tauto].
Qed.

(** Enumeration visits exactly the keys of the object. *)
Lemma in_ownKeys k o : In k (ownKeys o) <-> In k (map fst o).
Proof.
  unfold ownKeys. rewrite in_app_iff, in_index_keys, filter_In.
  destruct (is_index k); simpl; intuition congruence.
Qed.

Lemma get_copy_other k o ks : forall acc,
  ~ In k ks -> get k (fold_left (copy_property o) ks acc) = get k acc.
Proof.
  induction ks as [|a ks IH]; intros acc Hnin; simpl; [reflexivity|].
  simpl in Hnin. rewrite IH by tauto. unfold copy_property.
  destruct (get a o); [|reflexivity].
  apply get_set_ne. tauto.
Qed.

Lemma get_copy_in k (v : V) o ks : forall acc,
  In k ks -> get k o = Some v ->
  get k (fold_left (copy_property o) ks acc) = Some v.
Proof.
  induction ks as [|a ks IH]; intros acc Hin Hget; simpl; [destruct Hin|].
  destruct (in_dec string_dec k ks) as [Hks|Hks].
  - now apply IH.
  - destruct Hin as [->|Hin]; [|contradiction].
    rewrite get_copy_other by assumption.
    unfold copy_property. rewrite Hget. apply get_set_eq.
Qed.

(** Spreading an object copies each of its properties. *)
Lemma get_spread k o : get k (spread (Some o)) = get k o.
Proof.
  unfold spread. destruct (get k o) as [v|] eqn:E.
  - apply get_copy_in; [|assumption].
    apply in_ownKeys, get_in_keys. congruence.
  - rewrite get_copy_other; [reflexivity|].
    rewrite in_ownKeys, get_in_keys. tauto.
Qed.

Lemma get_spread_undefined k : get k (spread (V := V) None) = None.
Proof. reflexivity. Qed.

End Facts.

End PropertyListFacts.

(** ** Registration *)

Section Registration.

Implicit Types (reg : ValidatorConfig) (target : object) (d : decorator).

Lemma rules_of_insert reg className (config : ClassConfig) prop :
  rules_of (<[className := config]> reg) className prop
  = default [] (PropertyList.get prop config).
Proof. unfold rules_of. now rewrite lookup_insert_eq. Qed.

Lemma get_spread_lookup reg className prop :
  default [] (PropertyList.get prop (PropertyList.spread (reg !! className)))
  = rules_of reg className prop.
Proof.
  unfold rules_of. destruct (reg !! className) as [config|].
  - now rewrite PropertyListFacts.get_spread.
  - reflexivity.
Qed.

Lemma decorate_unfold d target prop reg :
  decorate d target prop reg
  = <[constructor_name target :=
        PropertyList.set prop [rule_name d]
          (PropertyList.spread (reg !! constructor_name target))]> reg.
Proof. now destruct d. Qed.

(** A decorator leaves exactly its own validator on the property. *)
Lemma rules_of_decorate_same d target prop reg :
  rules_of (decorate d target prop reg) (constructor_name target) prop
  = [rule_name d].
Proof.
  rewrite decorate_unfold, rules_of_insert.
  now rewrite PropertyListFacts.get_set_eq.
Qed.

(** The other properties of the class keep their validators. *)
Lemma rules_of_decorate_other_prop d target prop prop' reg :
  prop <> prop' ->
  rules_of (decorate d target prop reg) (constructor_name target) prop'
  = rules_of reg (constructor_name target) prop'.
Proof.
  intros Hne. rewrite decorate_unfold, rules_of_insert.
  rewrite PropertyListFacts.get_set_ne by assumption.
  apply get_spread_lookup.
Qed.

(** The other classes keep their configuration object. *)
Lemma lookup_decorate_other_class d target prop className reg :
  constructor_name target <> className ->
  decorate d target prop reg !! className = reg !! className.
Proof.
  intros Hne. rewrite decorate_unfold. now apply lookup_insert_ne.
Qed.

Lemma rules_of_decorate_other_class d target prop className p reg :
  constructor_name target <> className ->
  rules_of (decorate d target prop reg) className p
  = rules_of reg className p.
Proof.
  intros Hne. unfold rules_of.
  now rewrite lookup_decorate_other_class.
Qed.

(** Nothing is deleted: a property that holds validators holds some after
    any registration. *)
Lemma decorate_keeps_entries d target prop className p reg :
  rules_of reg className p <> [] ->
  rules_of (decorate d target prop reg) className p <> [].
Proof.
  intros Hheld.
  destruct (decide (constructor_name target = className)) as [<-|Hclass].
  - destruct (decide (prop = p)) as [<-|Hprop].
    + rewrite rules_of_decorate_same. discriminate.
    + now rewrite rules_of_decorate_other_prop.
  - now rewrite rules_of_decorate_other_class.
Qed.

Lemma decorate_all_app (ds1 ds2 : list (decorator * object * string)) reg :
  decorate_all (ds1 ++ ds2) reg = decorate_all ds2 (decorate_all ds1 reg).
Proof. apply fold_left_app. Qed.

End Registration.

(** ** Comparisons with zero *)

Lemma SFltb_zero_sign (x : number) :
  SFltb zero x = true <-> sign_of x = Some Gt.
Proof.
  destruct x as [s|s| |s m e]; try destruct s; cbv;
    intuition congruence.
Qed.

Lemma SFleb_zero_sign (x : number) :
  SFleb x zero = true <-> sign_of x = Some Lt \/ sign_of x = Some Eq.
Proof.
  destruct x as [s|s| |s m e]; try destruct s; cbv;
    intuition congruence.
Qed.

Lemma SFleb_zero_not_gt (x : number) :
  SFleb x zero = true -> SFltb zero x = false.
Proof.
  intros H. apply SFleb_zero_sign in H.
  destruct (SFltb zero x) eqn:E; [|reflexivity].
  apply SFltb_zero_sign in E. destruct H; congruence.
Qed.

(** ** Validation *)

Section Validation.

Variable StringToNumber : string -> number.

Implicit Types (reg : ValidatorConfig) (obj : object) (v : value).

Lemma Candidate_Get obj prop :
  Candidate obj -> is_symbol (Get obj prop) = false.
Proof.
  intros Hc. unfold Get.
  destruct (properties obj !! prop) as [v|] eqn:E; [|reflexivity].
  exact (Hc prop v E).
Qed.

Lemma ToNumber_data v :
  is_symbol v = false -> exists n, ToNumber StringToNumber v = Normal n.
Proof. destruct v; simpl; intros H; try discriminate; eauto. Qed.

Lemma apply_validator_data obj prop isValid validator :
  is_symbol (Get obj prop) = false ->
  apply_validator StringToNumber obj prop isValid validator
  = Normal (isValid && holds StringToNumber obj prop validator).
Proof.
  intros Hd. unfold apply_validator, holds.
  destruct (validator =? "Required").
  - now destruct isValid.
  - destruct (validator =? "Positive").
    + destruct (ToNumber_data _ Hd) as [n Hn].
      unfold greater_than_zero. rewrite Hn. now destruct isValid.
    + now rewrite andb_true_r.
Qed.

Lemma for_each_validators obj prop (validators : list string) :
  is_symbol (Get obj prop) = false ->
  forall isValid,
    for_each (apply_validator StringToNumber obj prop) validators isValid
    = Normal (isValid && forallb (holds StringToNumber obj prop) validators).
Proof.
  intros Hd. induction validators as [|validator l IH]; intros isValid; simpl.
  - now rewrite andb_true_r.
  - rewrite apply_validator_data by assumption. simpl.
    rewrite IH. now rewrite andb_assoc.
Qed.

Lemma for_each_props obj (config : ClassConfig) (props : list string) :
  Candidate obj ->
  forall isValid,
    for_each
      (fun isValid prop =>
         for_each (apply_validator StringToNumber obj prop)
           (default [] (PropertyList.get prop config)) isValid)
      props isValid
    = Normal
        (isValid &&
         forallb
           (fun prop =>
              forallb (holds StringToNumber obj prop)
                (default [] (PropertyList.get prop config)))
           props).
Proof.
  intros Hc. induction props as [|prop l IH]; intros isValid; simpl.
  - now rewrite andb_true_r.
  - rewrite for_each_validators by now apply Candidate_Get.
    simpl. rewrite IH. now rewrite andb_assoc.
Qed.

(** On a candidate instance [validate] returns, and returns the
    conjunction of its rules. *)
Lemma validate_candidate reg obj :
  Candidate obj ->
  validate StringToNumber reg obj
  = Normal (all_rules_hold StringToNumber reg obj).
Proof.
  intros Hc. unfold validate, all_rules_hold.
  destruct (reg !! constructor_name obj) as [config|]; [|reflexivity].
  now rewrite for_each_props.
Qed.

Lemma all_rules_hold_iff reg obj :
  all_rules_hold StringToNumber reg obj = true <->
  (forall prop validator,
     In validator (rules_of reg (constructor_name obj) prop) ->
     holds StringToNumber obj prop validator = true).
Proof.
  unfold all_rules_hold, rules_of.
  destruct (reg !! constructor_name obj) as [config|].
  - rewrite forallb_forall. split.
    + intros H prop validator Hin.
      assert (Hk : In prop (PropertyList.ownKeys config)).
      { apply PropertyListFacts.in_ownKeys, PropertyListFacts.get_in_keys.
        destruct (PropertyList.get prop config); [discriminate | destruct Hin]. }
      specialize (H prop Hk). rewrite forallb_forall in H. now apply H.
    + intros H prop _. apply forallb_forall. intros validator Hin.
      now apply H.
  - split; [intros _ prop validator [] | reflexivity].
Qed.

(** The conjunction law: a candidate passes exactly when every rule held
    for its class holds. *)
Lemma validate_true_iff reg obj :
  Candidate obj ->
  (validate StringToNumber reg obj = Normal true <->
   forall prop validator,
     In validator (rules_of reg (constructor_name obj) prop) ->
     holds StringToNumber obj prop validator = true).
Proof.
  intros Hc. rewrite validate_candidate by assumption.
  rewrite <- all_rules_hold_iff. split; [congruence | now intros ->].
Qed.

(** One failing rule makes [validate] return [false]. *)
Lemma validate_false reg obj prop validator :
  Candidate obj ->
  In validator (rules_of reg (constructor_name obj) prop) ->
  holds StringToNumber obj prop validator = false ->
  validate StringToNumber reg obj = Normal false.
Proof.
  intros Hc Hin Hf. rewrite validate_candidate by assumption.
  destruct (all_rules_hold StringToNumber reg obj) eqn:E; [|reflexivity].
  rewrite all_rules_hold_iff in E. specialize (E prop validator Hin).
  congruence.
Qed.



(** A class none of whose properties holds a validator passes, whatever
    the instance holds. *)
Lemma validate_no_rules reg obj :
  (forall prop, rules_of reg (constructor_name obj) prop = []) ->
  validate StringToNumber reg obj = Normal true.
Proof.
  unfold validate, rules_of.
  destruct (reg !! constructor_name obj) as [config|]; [|reflexivity].
  intros H. induction (PropertyList.ownKeys config) as [|prop l IH]; simpl.
  - reflexivity.
  - now rewrite H.
Qed.



End Validation.

Lemma Candidate_Course (t : string) (p : number) : Candidate (Course t p).
Proof.
  unfold Candidate, Course. simpl.
  repeat apply map_Forall_insert_2; try reflexivity.
  apply map_Forall_empty.
Qed.

(** * The claims of the specification *)

(** ** Registration: C1, C3, C4 *)

(** Claim C1, at the input where the code departs from it.  The claim has
    a registration append its rule to the list already held for the
    property.  On the code the list is replaced: once [Required] has run on
    [price] of [Course] the list is [["Required"]], and once
    [PositiveNumber] has run on the same property it is [["Positive"]],
    not [["Required"; "Positive"]]. *)
Theorem registration_replaces_rule_list :
  rules_of (Required Course_prototype "price" registeredValidators)
    "Course" "price"
  = ["Required"] /\
  rules_of
    (PositiveNumber Course_prototype "price"
       (Required Course_prototype "price" registeredValidators))
    "Course" "price"
  = ["Positive"].
Proof. split; reflexivity. Qed.

(** Claim C3: registering a rule for property [A] of a class, with either
    decorator, leaves the rules held for any other property [B] of that
    class as they were. *)
Theorem registration_frames_other_fields
    (reg : ValidatorConfig) (target : object) (A B : string) :
  A <> B ->
  rules_of (Required target A reg) (constructor_name target) B
  = rules_of reg (constructor_name target) B /\
  rules_of (PositiveNumber target A reg) (constructor_name target) B
  = rules_of reg (constructor_name target) B.
Proof.
  intros Hne. split.
  - exact (rules_of_decorate_other_prop AtRequired target A B reg Hne).
  - exact (rules_of_decorate_other_prop AtPositiveNumber target A B reg Hne).
Qed.

Lemma registration_frames_other_fields_witness :
  "price" <> "title" /\
  (rules_of
     (Required Course_prototype "price"
        (Required Course_prototype "title" registeredValidators))
     "Course" "title"
   = ["Required"] /\
   rules_of
     (PositiveNumber Course_prototype "price"
        (Required Course_prototype "title" registeredValidators))
     "Course" "title"
   = ["Required"]).
Proof.
  split; [discriminate|].
  apply (registration_frames_other_fields
           (Required Course_prototype "title" registeredValidators)
           Course_prototype "price" "title").
  discriminate.
Defined.

(** Claim C4: after any sequence of registrations on one property of one
    class, run on any table, the property holds the rule of the last
    registration and nothing else; so of two or more registrations only
    the last is retained. *)
Theorem only_last_rule_retained
    (reg : ValidatorConfig) (target : object) (prop : string)
    (ds : list decorator) (d : decorator) :
  2 <= length ds ->
  last ds = Some d ->
  rules_of
    (decorate_all (map (fun d' => (d', target, prop)) ds) reg)
    (constructor_name target) prop
  = [rule_name d].
Proof.
  intros _ Hlast. apply last_Some in Hlast. destruct Hlast as [ds' ->].
  rewrite map_app, decorate_all_app. simpl.
  apply rules_of_decorate_same.
Qed.

Lemma only_last_rule_retained_witness :
  2 <= length [AtRequired; AtPositiveNumber; AtRequired] /\
  last [AtRequired; AtPositiveNumber; AtRequired] = Some AtRequired /\
  rules_of
    (decorate_all
       (map (fun d' => (d', Course_prototype, "price"))
          [AtRequired; AtPositiveNumber; AtRequired])
       registeredValidators)
    "Course" "price"
  = ["Required"].
Proof.
  split; [simpl; lia|]. split; [reflexivity|].
  apply (only_last_rule_retained registeredValidators Course_prototype
           "price" [AtRequired; AtPositiveNumber; AtRequired] AtRequired).
  - simpl; lia.
  - reflexivity.
Defined.

(** ** Validation: C2, C5, C6, C7, C10 *)

Section ValidationClaims.

Variable StringToNumber : string -> number.

(** Claim C2, at the input where the code departs from it.  The claim has
    a property on which both decorators ran, in either order, fail as soon
    as one of the two predicates fails.  With [PositiveNumber] run first
    and [Required] second on [price] of [Course], the table keeps
    [["Required"]] alone, and the instance whose price is [-5], which does
    not pass [> 0], is accepted. *)
Theorem both_rules_negative_price_accepted :
  rules_of
    (Required Course_prototype "price"
       (PositiveNumber Course_prototype "price" registeredValidators))
    "Course" "price"
  = ["Required"] /\
  greater_than_zero StringToNumber (VNumber (double (-5))) = Normal false /\
  validate StringToNumber
    (Required Course_prototype "price"
       (PositiveNumber Course_prototype "price" registeredValidators))
    (Course "Algebra" (double (-5)))
  = Normal true.
Proof. repeat split; reflexivity. Qed.



(** Claim C7: when no property of the class of an instance holds a rule
    in the table, and so when the class has no entry at all, [validate]
    returns [true] whatever the instance holds. *)
Theorem validate_unregistered_type (reg : ValidatorConfig) (obj : object) :
  (forall prop, rules_of reg (constructor_name obj) prop = []) ->
  validate StringToNumber reg obj = Normal true.
Proof. apply validate_no_rules. Qed.


(** A price field whose text the host reads as NaN ends in the alert. *)
Lemma submit_non_numeric_price (titleText priceText : string) :
  StringToNumber priceText = S754_nan ->
  submit StringToNumber (Course_defined registeredValidators)
    titleText priceText
  = Normal (Alert "Invalid input, do better!").
Proof.
  intros Hnan. unfold submit. simpl. rewrite Hnan.
  rewrite (validate_false _ _ (Course titleText S754_nan) "price" "Positive").
  - reflexivity.
  - apply Candidate_Course.
  - now left.
  - reflexivity.
Qed.

End ValidationClaims.

(** The scenario of the course form: a title and a positive price pass,
    an empty title or a negative price is rejected. *)
Example Course_scenario :
  let reg := Course_defined registeredValidators in
  validate digits_to_number reg (Course "Algebra" (double 10))
  = Normal true /\
  validate digits_to_number reg (Course "" (double 10)) = Normal false /\
  validate digits_to_number reg (Course "Algebra" (double (-1)))
  = Normal false /\
  validate digits_to_number reg (Course "" (double (-1))) = Normal false.
Proof. repeat split; reflexivity. Qed.




Lemma validate_unregistered_type_witness :
  (forall prop,
     rules_of (Course_defined registeredValidators)
       (constructor_name Printer) prop = []) /\
  validate digits_to_number (Course_defined registeredValidators) Printer
  = Normal true.
Proof.
  split; [intros prop; reflexivity|].
  apply (validate_unregistered_type digits_to_number
           (Course_defined registeredValidators) Printer).
  intros prop; reflexivity.
Defined.


(** ** The price setter: C9 *)

(** Claim C9: assigning [val] through the [price] setter stores [val] in
    [_price] when [val > 0]; when [val <= 0] it throws the error
    ["Invalid price - must be positive"] and leaves the product, and so
    [_price], as it was. *)
Theorem set_price_spec (val : number) (this : Product) :
  (SFltb zero val = true ->
   set_price val this
   = (Normal tt, {| title := title this; _price := val |})) /\
  (SFleb val zero = true ->
   set_price val this
   = (Throw (Error "Invalid price - must be positive"), this)).
Proof.
  unfold set_price. split.
  - now intros ->.
  - intros Hle. now rewrite (SFleb_zero_not_gt val Hle).
Qed.

Lemma set_price_spec_witness :
  (SFltb zero (double 20) = true /\
   set_price (double 20) (new_Product "Book" (double 19))
   = (Normal tt, {| title := "Book"; _price := double 20 |})) /\
  (SFleb (double (-3)) zero = true /\
   set_price (double (-3)) (new_Product "Book" (double 19))
   = (Throw (Error "Invalid price - must be positive"),
      new_Product "Book" (double 19))).
Proof.
  split; (split; [reflexivity|]).
  - apply (proj1 (set_price_spec (double 20)
                    (new_Product "Book" (double 19)))).
    reflexivity.
  - apply (proj2 (set_price_spec (double (-3))
                    (new_Product "Book" (double 19)))).
    reflexivity.
Defined.

(** * Further properties of the code *)

(** ** Registrations in sequence *)

Section RegistrationSequences.

Implicit Types (reg : ValidatorConfig) (target : object) (d : decorator).
Implicit Types (ds : list (decorator * object * string)).

(** What one registration leaves on every property of every class. *)
Lemma rules_of_decorate d target prop reg className p :
  rules_of (decorate d target prop reg) className p
  = if registers className p (d, target, prop) then [rule_name d]
    else rules_of reg className p.
Proof.
  unfold registers. simpl.
  destruct (String.eqb_spec (constructor_name target) className) as [<-|Hc].
  - destruct (String.eqb_spec prop p) as [<-|Hp]; simpl.
    + apply rules_of_decorate_same.
    + now apply rules_of_decorate_other_prop.
  - simpl. now apply rules_of_decorate_other_class.
Qed.

Lemma decorate_all_snoc ds d target prop reg :
  decorate_all (ds ++ [(d, target, prop)]) reg
  = decorate d target prop (decorate_all ds reg).
Proof. unfold decorate_all. now rewrite fold_left_app. Qed.

Lemma last_registration_snoc className p ds (r : decorator * object * string) :
  last_registration className p (ds ++ [r])
  = if registers className p r then Some (fst (fst r))
    else last_registration className p ds.
Proof. unfold last_registration. now rewrite fold_left_app. Qed.

Lemma rules_of_decorate_all ds reg className p :
  rules_of (decorate_all ds reg) className p
  = match last_registration className p ds with
    | Some d => [rule_name d]
    | None => rules_of reg className p
    end.
Proof.
  induction ds as [|[[d target] prop] ds IH] using rev_ind.
  - reflexivity.
  - rewrite decorate_all_snoc, last_registration_snoc, rules_of_decorate.
    destruct (registers className p (d, target, prop)); [reflexivity|].
    exact IH.
Qed.

End RegistrationSequences.

(** After any sequence of registrations, run on any table, a property
    holds the rule of the last registration that named it, alone; a
    property no registration named holds what it held before. *)
Theorem registrations_last_wins
    (ds : list (decorator * object * string)) (reg : ValidatorConfig)
    (className prop : string) :
  rules_of (decorate_all ds reg) className prop
  = match last_registration className prop ds with
    | Some d => [rule_name d]
    | None => rules_of reg className prop
    end.
Proof. apply rules_of_decorate_all. Qed.

(** From the empty table the decorators never build a list of two rules:
    whatever the registrations, a property holds no rule, ["Required"]
    alone or ["Positive"] alone. *)
Theorem reachable_table_single_rule
    (ds : list (decorator * object * string)) (className prop : string) :
  rules_of (decorate_all ds registeredValidators) className prop = [] \/
  rules_of (decorate_all ds registeredValidators) className prop
  = ["Required"] \/
  rules_of (decorate_all ds registeredValidators) className prop
  = ["Positive"].
Proof.
  rewrite rules_of_decorate_all.
  destruct (last_registration className prop ds) as [[|]|]; auto.
Qed.

(** No registration deletes: a property that holds rules still holds
    rules after any sequence of registrations. *)
Theorem registrations_never_delete
    (ds : list (decorator * object * string)) (reg : ValidatorConfig)
    (className prop : string) :
  rules_of reg className prop <> [] ->
  rules_of (decorate_all ds reg) className prop <> [].
Proof.
  intros Hheld. rewrite rules_of_decorate_all.
  destruct (last_registration className prop ds); [discriminate | exact Hheld].
Qed.

Lemma registrations_never_delete_witness :
  rules_of (Course_defined registeredValidators) "Course" "title" <> [] /\
  rules_of
    (decorate_all
       [(AtPositiveNumber, Course_prototype, "price");
        (AtRequired, Printer, "message")]
       (Course_defined registeredValidators))
    "Course" "title"
  <> [].
Proof.
  split; [discriminate|].
  apply (registrations_never_delete
           [(AtPositiveNumber, Course_prototype, "price");
            (AtRequired, Printer, "message")]
           (Course_defined registeredValidators) "Course" "title").
  discriminate.
Defined.

(** Two registrations that name different properties, or properties of
    different classes, can run in either order: every property of every
    class ends with the same rules. *)
Theorem registrations_commute
    (d1 d2 : decorator) (target1 target2 : object) (prop1 prop2 : string)
    (reg : ValidatorConfig) (className prop : string) :
  ~ (constructor_name target1 = constructor_name target2 /\ prop1 = prop2) ->
  rules_of (decorate d1 target1 prop1 (decorate d2 target2 prop2 reg))
    className prop
  = rules_of (decorate d2 target2 prop2 (decorate d1 target1 prop1 reg))
      className prop.
Proof.
  intros Hdiff. rewrite !rules_of_decorate. unfold registers. simpl.
  destruct (String.eqb_spec (constructor_name target1) className) as [E1|];
    destruct (String.eqb_spec (constructor_name target2) className) as [E2|];
    destruct (String.eqb_spec prop1 prop) as [F1|];
    destruct (String.eqb_spec prop2 prop) as [F2|];
    simpl; try reflexivity.
  exfalso. apply Hdiff. split; congruence.
Qed.

Lemma registrations_commute_witness :
  ~ (constructor_name Course_prototype = constructor_name Course_prototype /\
     "title" = "price") /\
  rules_of
    (decorate AtRequired Course_prototype "title"
       (decorate AtPositiveNumber Course_prototype "price"
          registeredValidators))
    "Course" "price"
  = rules_of
      (decorate AtPositiveNumber Course_prototype "price"
         (decorate AtRequired Course_prototype "title"
            registeredValidators))
      "Course" "price".
Proof.
  split; [intros [_ H]; discriminate H|].
  apply (registrations_commute AtRequired AtPositiveNumber
           Course_prototype Course_prototype "title" "price"
           registeredValidators "Course" "price").
  intros [_ H]; discriminate H.
Defined.

(** Running a registration a second time changes no rule. *)
Theorem registration_idempotent
    (d : decorator) (target : object) (prop : string)
    (reg : ValidatorConfig) (className p : string) :
  rules_of (decorate d target prop (decorate d target prop reg)) className p
  = rules_of (decorate d target prop reg) className p.
Proof.
  rewrite !rules_of_decorate.
  now destruct (registers className p (d, target, prop)).
Qed.

(** ** Validation of arbitrary objects *)

Section ValidationOutcomes.

Variable StringToNumber : string -> number.

Implicit Types (reg : ValidatorConfig) (obj : object) (e : exn).

Lemma greater_than_zero_Throw (v : value) e :
  greater_than_zero StringToNumber v = Throw e ->
  e = TypeError /\ is_symbol v = true.
Proof. destruct v; cbn; intros H; try discriminate; now injection H. Qed.

Lemma apply_validator_Normal obj prop isValid validator (b : bool) :
  apply_validator StringToNumber obj prop isValid validator = Normal b ->
  b = isValid && holds StringToNumber obj prop validator.
Proof.
  unfold apply_validator, holds.
  destruct (validator =? "Required").
  - destruct isValid; simpl; now intros [= <-].
  - destruct (validator =? "Positive").
    + destruct isValid; simpl; [|now intros [= <-]].
      destruct (greater_than_zero StringToNumber (Get obj prop));
        [now intros [= <-] | discriminate].
    + intros [= <-]. now rewrite andb_true_r.
Qed.

Lemma apply_validator_Throw obj prop isValid validator e :
  apply_validator StringToNumber obj prop isValid validator = Throw e ->
  e = TypeError /\ validator = "Positive" /\
  is_symbol (Get obj prop) = true.
Proof.
  unfold apply_validator.
  destruct (validator =? "Required"); [destruct isValid; discriminate|].
  destruct (String.eqb_spec validator "Positive") as [->|];
    [|discriminate].
  destruct isValid; simpl; [|discriminate].
  intros H. apply greater_than_zero_Throw in H. tauto.
Qed.

Lemma validators_Normal obj prop (validators : list string) :
  forall isValid (b : bool),
    for_each (apply_validator StringToNumber obj prop) validators isValid
    = Normal b ->
    b = isValid && forallb (holds StringToNumber obj prop) validators.
Proof.
  induction validators as [|validator l IH]; intros isValid b; simpl.
  - intros [= <-]. now rewrite andb_true_r.
  - destruct (apply_validator StringToNumber obj prop isValid validator)
      as [b'|e] eqn:E; simpl; [|discriminate].
    intros H. apply IH in H. apply apply_validator_Normal in E.
    subst. now rewrite andb_assoc.
Qed.

Lemma validators_Throw obj prop (validators : list string) e :
  forall isValid,
    for_each (apply_validator StringToNumber obj prop) validators isValid
    = Throw e ->
    e = TypeError /\ In "Positive" validators /\
    is_symbol (Get obj prop) = true.
Proof.
  induction validators as [|validator l IH]; intros isValid; simpl.
  - discriminate.
  - destruct (apply_validator StringToNumber obj prop isValid validator)
      as [b'|e'] eqn:E; simpl.
    + intros H. apply IH in H. tauto.
    + intros [= <-]. apply apply_validator_Throw in E.
      destruct E as [-> [-> Hs]]. auto.
Qed.

Lemma props_Normal obj (config : ClassConfig) (props : list string) :
  forall isValid (b : bool),
    for_each
      (fun isValid prop =>
         for_each (apply_validator StringToNumber obj prop)
           (default [] (PropertyList.get prop config)) isValid)
      props isValid
    = Normal b ->
    b = isValid &&
        forallb
          (fun prop =>
             forallb (holds StringToNumber obj prop)
               (default [] (PropertyList.get prop config)))
          props.
Proof.
  induction props as [|prop l IH]; intros isValid b; simpl.
  - intros [= <-]. now rewrite andb_true_r.
  - destruct (for_each (apply_validator StringToNumber obj prop)
                (default [] (PropertyList.get prop config)) isValid)
      as [b'|e] eqn:E; simpl; [|discriminate].
    intros H. apply IH in H. apply validators_Normal in E.
    subst. now rewrite andb_assoc.
Qed.

Lemma props_Throw obj (config : ClassConfig) (props : list string) e :
  forall isValid,
    for_each
      (fun isValid prop =>
         for_each (apply_validator StringToNumber obj prop)
           (default [] (PropertyList.get prop config)) isValid)
      props isValid
    = Throw e ->
    e = TypeError /\
    exists prop,
      In "Positive" (default [] (PropertyList.get prop config)) /\
      is_symbol (Get obj prop) = true.
Proof.
  induction props as [|prop l IH]; intros isValid; simpl.
  - discriminate.
  - destruct (for_each (apply_validator StringToNumber obj prop)
                (default [] (PropertyList.get prop config)) isValid)
      as [b'|e'] eqn:E; simpl.
    + apply IH.
    + intros [= <-]. apply validators_Throw in E.
      destruct E as [-> [Hin Hs]]. eauto.
Qed.

(** Whenever [validate] returns, it returns the conjunction of the rules
    held for the class, on candidate instances or not. *)
Lemma validate_Normal reg obj (b : bool) :
  validate StringToNumber reg obj = Normal b ->
  b = all_rules_hold StringToNumber reg obj.
Proof.
  unfold validate, all_rules_hold.
  destruct (reg !! constructor_name obj) as [config|].
  - intros H. now apply props_Normal in H.
  - now intros [= <-].
Qed.

Lemma validate_Throw reg obj e :
  validate StringToNumber reg obj = Throw e ->
  e = TypeError /\
  exists prop,
    In "Positive" (rules_of reg (constructor_name obj) prop) /\
    is_symbol (Get obj prop) = true.
Proof.
  unfold validate, rules_of.
  destruct (reg !! constructor_name obj) as [config|]; [|discriminate].
  apply props_Throw.
Qed.

Lemma for_each_ext {A S : Type} (f g : S -> A -> completion S)
    (l : list A) :
  (forall a, In a l -> forall s, f s a = g s a) ->
  forall s, for_each f l s = for_each g l s.
Proof.
  induction l as [|a l IH]; intros Hfg s; simpl; [reflexivity|].
  rewrite (Hfg a (or_introl eq_refl) s).
  destruct (g s a) as [s'|e]; simpl; [|reflexivity].
  apply IH. intros a' Hin. apply Hfg. now right.
Qed.

Lemma apply_validator_Get (o1 o2 : object) prop isValid validator :
  Get o1 prop = Get o2 prop ->
  apply_validator StringToNumber o1 prop isValid validator
  = apply_validator StringToNumber o2 prop isValid validator.
Proof. intros H. unfold apply_validator. now rewrite H. Qed.

End ValidationOutcomes.

Section ValidationProperties.

Variable StringToNumber : string -> number.

(** Whatever object it is given, [validate] returns [true] only when
    every rule held for the class of the object holds of it, and [false]
    only when one does not. *)
Theorem validate_returns_the_conjunction
    (reg : ValidatorConfig) (obj : object) (b : bool) :
  validate StringToNumber reg obj = Normal b ->
  (b = true <->
   forall prop validator,
     In validator (rules_of reg (constructor_name obj) prop) ->
     holds StringToNumber obj prop validator = true).
Proof.
  intros H. apply validate_Normal in H. subst b.
  apply all_rules_hold_iff.
Qed.

(** For an instance of a class whose properties are data properties
    holding primitive values ([undefined], [null], booleans, numbers,
    strings, symbols), the only exception [validate] lets out is the
    [TypeError] of comparing a symbol with [0]: when it throws, some
    property carrying the [Positive] rule holds a symbol.  Objects as
    property values, whose conversion may throw anything, accessors and
    receivers without a constructor are not instances of this
    statement. *)
Theorem validate_throws_only_for_symbols
    (reg : ValidatorConfig) (obj : object) (e : exn) :
  validate StringToNumber reg obj = Throw e ->
  e = TypeError /\
  exists prop,
    In "Positive" (rules_of reg (constructor_name obj) prop) /\
    is_symbol (Get obj prop) = true.
Proof. apply validate_Throw. Qed.

(** The [switch] has no default case: a class whose validator names are
    all other than ["Required"] and ["Positive"] accepts every object. *)
Theorem validate_ignores_unknown_validators
    (reg : ValidatorConfig) (obj : object) :
  (forall prop validator,
     In validator (rules_of reg (constructor_name obj) prop) ->
     validator <> "Required" /\ validator <> "Positive") ->
  validate StringToNumber reg obj = Normal true.
Proof.
  intros Hunknown.
  destruct (validate StringToNumber reg obj) as [b|e] eqn:E.
  - apply validate_Normal in E. subst b. f_equal.
    apply all_rules_hold_iff. intros prop validator Hin.
    destruct (Hunknown prop validator Hin) as [Hr Hp].
    unfold holds.
    apply String.eqb_neq in Hr, Hp. now rewrite Hr, Hp.
  - apply validate_Throw in E. destruct E as [_ [prop [Hin _]]].
    destruct (Hunknown prop "Positive" Hin) as [_ Hp]. now destruct Hp.
Qed.

(** [validate] reads the properties that carry rules and no other: two
    objects of one class that agree on those get the same outcome. *)
Theorem validate_reads_ruled_properties
    (reg : ValidatorConfig) (obj1 obj2 : object) :
  constructor_name obj1 = constructor_name obj2 ->
  (forall prop,
     rules_of reg (constructor_name obj1) prop <> [] ->
     Get obj1 prop = Get obj2 prop) ->
  validate StringToNumber reg obj1 = validate StringToNumber reg obj2.
Proof.
  intros Hclass Hagree. unfold validate, rules_of in *.
  rewrite <- Hclass.
  destruct (reg !! constructor_name obj1) as [config|]; [|reflexivity].
  apply for_each_ext. intros prop _ isValid.
  destruct (default [] (PropertyList.get prop config)) as [|v l] eqn:E.
  - reflexivity.
  - apply for_each_ext. intros validator _ isValid'.
    apply apply_validator_Get, Hagree. rewrite E. discriminate.
Qed.

(** On a candidate instance the outcome depends on which rules each
    property holds, not on the order of the properties or of the rules,
    nor on repetitions. *)
Theorem validate_same_rules_same_outcome
    (reg1 reg2 : ValidatorConfig) (obj : object) :
  Candidate obj ->
  (forall prop validator,
     In validator (rules_of reg1 (constructor_name obj) prop) <->
     In validator (rules_of reg2 (constructor_name obj) prop)) ->
  validate StringToNumber reg1 obj = validate StringToNumber reg2 obj.
Proof.
  intros Hc Hsame. rewrite !validate_candidate by assumption. f_equal.
  apply eq_true_iff_eq. rewrite !all_rules_hold_iff.
  split; intros H prop validator Hin; apply H, Hsame, Hin.
Qed.

(** Registering a rule on one class changes nothing for the objects of
    another class, whatever they hold. *)
Theorem registration_frames_other_classes
    (reg : ValidatorConfig) (target obj : object) (prop : string) :
  constructor_name target <> constructor_name obj ->
  validate StringToNumber (Required target prop reg) obj
  = validate StringToNumber reg obj /\
  validate StringToNumber (PositiveNumber target prop reg) obj
  = validate StringToNumber reg obj.
Proof.
  intros Hne. unfold validate. split.
  - change (Required target prop reg)
      with (decorate AtRequired target prop reg).
    now rewrite lookup_decorate_other_class.
  - change (PositiveNumber target prop reg)
      with (decorate AtPositiveNumber target prop reg).
    now rewrite lookup_decorate_other_class.
Qed.

End ValidationProperties.

Lemma validate_returns_the_conjunction_witness :
  validate digits_to_number (Course_defined registeredValidators)
    (Course "Algebra" (double 10))
  = Normal true /\
  (true = true <->
   forall prop validator,
     In validator
       (rules_of (Course_defined registeredValidators)
          (constructor_name (Course "Algebra" (double 10))) prop) ->
     holds digits_to_number (Course "Algebra" (double 10)) prop validator
     = true).
Proof.
  split; [reflexivity|].
  apply (validate_returns_the_conjunction digits_to_number
           (Course_defined registeredValidators)
           (Course "Algebra" (double 10)) true).
  reflexivity.
Defined.

Lemma validate_throws_only_for_symbols_witness :
  validate digits_to_number (Course_defined registeredValidators)
    {| constructor_name := "Course";
       properties :=
         <["price" := VSymbol "p"]> (<["title" := VString "Algebra"]> ∅) |}
  = Throw TypeError /\
  (TypeError = TypeError /\
   exists prop,
     In "Positive"
       (rules_of (Course_defined registeredValidators) "Course" prop) /\
     is_symbol
       (Get
          {| constructor_name := "Course";
             properties :=
               <["price" := VSymbol "p"]>
                 (<["title" := VString "Algebra"]> ∅) |}
          prop)
     = true).
Proof.
  split; [reflexivity|].
  apply (validate_throws_only_for_symbols digits_to_number
           (Course_defined registeredValidators)
           {| constructor_name := "Course";
              properties :=
                <["price" := VSymbol "p"]>
                  (<["title" := VString "Algebra"]> ∅) |}
           TypeError).
  reflexivity.
Defined.

(** A table written with the lower-case names of the closing comment of
    the script. *)
Lemma validate_ignores_unknown_validators_witness :
  (forall prop validator,
     In validator
       (rules_of (<["Course" := [("title", ["required"])]]> registeredValidators)
          (constructor_name (Course "" (double 10))) prop) ->
     validator <> "Required" /\ validator <> "Positive") /\
  validate digits_to_number
    (<["Course" := [("title", ["required"])]]> registeredValidators)
    (Course "" (double 10))
  = Normal true.
Proof.
  assert (Hunknown :
    forall prop validator,
      In validator
        (rules_of
           (<["Course" := [("title", ["required"])]]> registeredValidators)
           (constructor_name (Course "" (double 10))) prop) ->
      validator <> "Required" /\ validator <> "Positive").
  { intros prop validator. rewrite rules_of_insert. simpl.
    destruct (prop =? "title"); simpl; [|tauto].
    intros [<-|[]]. split; discriminate. }
  split; [exact Hunknown|].
  apply (validate_ignores_unknown_validators digits_to_number
           (<["Course" := [("title", ["required"])]]> registeredValidators)
           (Course "" (double 10))).
  exact Hunknown.
Defined.

Lemma Course_defined_rules (prop : string) :
  rules_of (Course_defined registeredValidators) "Course" prop
  = if prop =? "title" then ["Required"]
    else if prop =? "price" then ["Positive"] else [].
Proof.
  unfold rules_of.
  change (Course_defined registeredValidators !! "Course")
    with (Some [("title", ["Required"]); ("price", ["Positive"])]).
  simpl. destruct (prop =? "title"); [reflexivity|].
  now destruct (prop =? "price").
Qed.

Lemma validate_reads_ruled_properties_witness :
  constructor_name (Course "Algebra" (double 10))
  = constructor_name
      {| constructor_name := "Course";
         properties :=
           <["note" := VSymbol "n"]>
             (properties (Course "Algebra" (double 10))) |} /\
  (forall prop,
     rules_of (Course_defined registeredValidators)
       (constructor_name (Course "Algebra" (double 10))) prop <> [] ->
     Get (Course "Algebra" (double 10)) prop
     = Get
         {| constructor_name := "Course";
            properties :=
              <["note" := VSymbol "n"]>
                (properties (Course "Algebra" (double 10))) |}
         prop) /\
  validate digits_to_number (Course_defined registeredValidators)
    (Course "Algebra" (double 10))
  = validate digits_to_number (Course_defined registeredValidators)
      {| constructor_name := "Course";
         properties :=
           <["note" := VSymbol "n"]>
             (properties (Course "Algebra" (double 10))) |}.
Proof.
  assert (Hagree :
    forall prop,
      rules_of (Course_defined registeredValidators)
        (constructor_name (Course "Algebra" (double 10))) prop <> [] ->
      Get (Course "Algebra" (double 10)) prop
      = Get
          {| constructor_name := "Course";
             properties :=
               <["note" := VSymbol "n"]>
                 (properties (Course "Algebra" (double 10))) |}
          prop).
  { intros prop. simpl. rewrite Course_defined_rules.
    destruct (String.eqb_spec prop "title") as [->|_]; [reflexivity|].
    destruct (String.eqb_spec prop "price") as [->|_]; [reflexivity|].
    intros H. now destruct H. }
  split; [reflexivity|]. split; [exact Hagree|].
  apply (validate_reads_ruled_properties digits_to_number
           (Course_defined registeredValidators)
           (Course "Algebra" (double 10))
           {| constructor_name := "Course";
              properties :=
                <["note" := VSymbol "n"]>
                  (properties (Course "Algebra" (double 10))) |}).
  - reflexivity.
  - exact Hagree.
Defined.

Lemma validate_same_rules_same_outcome_witness :
  Candidate (Course "Algebra" (double (-1))) /\
  (forall prop validator,
     In validator
       (rules_of (Course_defined registeredValidators)
          (constructor_name (Course "Algebra" (double (-1)))) prop) <->
     In validator
       (rules_of
          (<["Course" := [("price", ["Positive"; "Positive"]);
                          ("title", ["Required"])]]> registeredValidators)
          (constructor_name (Course "Algebra" (double (-1)))) prop)) /\
  validate digits_to_number (Course_defined registeredValidators)
    (Course "Algebra" (double (-1)))
  = validate digits_to_number
      (<["Course" := [("price", ["Positive"; "Positive"]);
                      ("title", ["Required"])]]> registeredValidators)
      (Course "Algebra" (double (-1))).
Proof.
  assert (Hsame :
    forall prop validator,
      In validator
        (rules_of (Course_defined registeredValidators)
           (constructor_name (Course "Algebra" (double (-1)))) prop) <->
      In validator
        (rules_of
           (<["Course" := [("price", ["Positive"; "Positive"]);
                           ("title", ["Required"])]]> registeredValidators)
           (constructor_name (Course "Algebra" (double (-1)))) prop)).
  { intros prop validator. simpl.
    rewrite Course_defined_rules, rules_of_insert. simpl.
    destruct (String.eqb_spec prop "title") as [->|_]; [reflexivity|].
    destruct (prop =? "price"); simpl; tauto. }
  split; [apply Candidate_Course|]. split; [exact Hsame|].
  apply (validate_same_rules_same_outcome digits_to_number
           (Course_defined registeredValidators)
           (<["Course" := [("price", ["Positive"; "Positive"]);
                           ("title", ["Required"])]]> registeredValidators)
           (Course "Algebra" (double (-1)))).
  - apply Candidate_Course.
  - exact Hsame.
Defined.

Lemma registration_frames_other_classes_witness :
  constructor_name Printer <> constructor_name (Course "" (double 10)) /\
  (validate digits_to_number
     (Required Printer "message" (Course_defined registeredValidators))
     (Course "" (double 10))
   = validate digits_to_number (Course_defined registeredValidators)
       (Course "" (double 10)) /\
   validate digits_to_number
     (PositiveNumber Printer "message" (Course_defined registeredValidators))
     (Course "" (double 10))
   = validate digits_to_number (Course_defined registeredValidators)
       (Course "" (double 10))).
Proof.
  split; [discriminate|].
  apply (registration_frames_other_classes digits_to_number
           (Course_defined registeredValidators) Printer
           (Course "" (double 10)) "message").
  discriminate.
Defined.

(** ** The class [Course] and its form *)

Lemma Course_defined_lookup (reg : ValidatorConfig) :
  reg !! "Course" = None ->
  Course_defined reg !! "Course"
  = @Some ClassConfig [("title", ["Required"]); ("price", ["Positive"])].
Proof.
  intros Hnone. unfold Course_defined, PositiveNumber, Required. simpl.
  rewrite !lookup_insert_eq, Hnone. reflexivity.
Qed.

Lemma Get_Course_title (t : string) (p : number) :
  Get (Course t p) "title" = VString t.
Proof.
  unfold Get, Course. simpl.
  rewrite lookup_insert_ne by discriminate.
  now rewrite lookup_insert_eq.
Qed.

Lemma Get_Course_price (t : string) (p : number) :
  Get (Course t p) "price" = VNumber p.
Proof. unfold Get, Course. simpl. now rewrite lookup_insert_eq. Qed.

(** Reading the class body of [Course] leaves [title] with ["Required"]
    alone and [price] with ["Positive"] alone, whatever the table held
    for them, and every other property of every class as it was. *)
Theorem Course_definition_rules
    (reg : ValidatorConfig) (className prop : string) :
  rules_of (Course_defined reg) className prop
  = if (className =? "Course") && (prop =? "title") then ["Required"]
    else if (className =? "Course") && (prop =? "price") then ["Positive"]
    else rules_of reg className prop.
Proof.
  unfold Course_defined.
  change (PositiveNumber Course_prototype "price"
            (Required Course_prototype "title" reg))
    with (decorate AtPositiveNumber Course_prototype "price"
            (decorate AtRequired Course_prototype "title" reg)).
  rewrite !rules_of_decorate. unfold registers. cbn [fst snd].
  change (constructor_name Course_prototype) with "Course".
  destruct (String.eqb_spec "Course" className),
    (String.eqb_spec className "Course"),
    (String.eqb_spec "title" prop), (String.eqb_spec prop "title"),
    (String.eqb_spec "price" prop), (String.eqb_spec prop "price");
    cbn [andb]; try reflexivity; congruence.
Qed.

Section FormProperties.

Variable StringToNumber : string -> number.

(** The submit handler never throws.  When no rule was registered for
    [Course] before its class body was read, it logs the course built from
    the two texts if the title is not empty and the price text converts to
    a number above zero, and alerts otherwise. *)
Theorem submit_outcome
    (reg : ValidatorConfig) (titleText priceText : string) :
  reg !! "Course" = None ->
  submit StringToNumber (Course_defined reg) titleText priceText
  = Normal
      (if negb (titleText =? "") && SFltb zero (StringToNumber priceText)
       then ConsoleLog (Course titleText (StringToNumber priceText))
       else Alert "Invalid input, do better!").
Proof.
  intros Hnone. unfold submit.
  change (ToNumber StringToNumber (VString priceText))
    with (Normal (StringToNumber priceText)).
  change (mbind ?f (Normal ?x)) with (f x). cbv beta.
  rewrite validate_candidate by apply Candidate_Course.
  unfold all_rules_hold.
  change (constructor_name (Course titleText (StringToNumber priceText)))
    with "Course".
  rewrite (Course_defined_lookup reg Hnone).
  change (PropertyList.ownKeys [("title", ["Required"]); ("price", ["Positive"])])
    with ["title"; "price"].
  simpl. unfold holds, greater_than_zero. simpl.
  rewrite Get_Course_title, Get_Course_price. simpl.
  rewrite !andb_true_r.
  now destruct (negb (titleText =? "") && SFltb zero (StringToNumber priceText)).
Qed.

(** Whatever the table holds and whatever was typed, the submit handler
    completes normally: it alerts, or it logs the course built from the
    two texts. *)
Theorem submit_never_throws
    (reg : ValidatorConfig) (titleText priceText : string) :
  submit StringToNumber reg titleText priceText
  = Normal (Alert "Invalid input, do better!") \/
  submit StringToNumber reg titleText priceText
  = Normal (ConsoleLog (Course titleText (StringToNumber priceText))).
Proof.
  unfold submit.
  change (ToNumber StringToNumber (VString priceText))
    with (Normal (StringToNumber priceText)).
  change (mbind ?f (Normal ?x)) with (f x). cbv beta.
  rewrite validate_candidate by apply Candidate_Course.
  change (mbind ?f (Normal ?x)) with (f x). cbv beta.
  destruct (all_rules_hold StringToNumber reg
              (Course titleText (StringToNumber priceText))); auto.
Qed.

End FormProperties.

Lemma submit_outcome_witness :
  (Required Printer "message" registeredValidators) !! "Course" = None /\
  submit digits_to_number
    (Course_defined (Required Printer "message" registeredValidators))
    "Algebra" "10"
  = Normal (ConsoleLog (Course "Algebra" (double 10))).
Proof.
  split; [reflexivity|].
  apply (submit_outcome digits_to_number
           (Required Printer "message" registeredValidators)
           "Algebra" "10").
  reflexivity.
Defined.

(** ** The [price] setter beyond two-sided comparisons *)

(** The setter stores exactly the values above zero, [+Infinity] among
    them; every other value, NaN and both zeros included, throws and
    leaves the product as it was. *)
Theorem set_price_accepts_only_positive (val : number) (this : Product) :
  (sign_of val = Some Gt ->
   set_price val this
   = (Normal tt, {| title := title this; _price := val |})) /\
  (sign_of val <> Some Gt ->
   set_price val this
   = (Throw (Error "Invalid price - must be positive"), this)).
Proof.
  unfold set_price. split; intros H.
  - apply SFltb_zero_sign in H. now rewrite H.
  - destruct (SFltb zero val) eqn:E; [|reflexivity].
    apply SFltb_zero_sign in E. contradiction.
Qed.

Lemma set_price_accepts_only_positive_witness :
  (sign_of (S754_infinity false) = Some Gt /\
   set_price (S754_infinity false) (new_Product "Book" (double 19))
   = (Normal tt, {| title := "Book"; _price := S754_infinity false |})) /\
  (sign_of S754_nan <> Some Gt /\
   set_price S754_nan (new_Product "Book" (double 19))
   = (Throw (Error "Invalid price - must be positive"),
      new_Product "Book" (double 19))).
Proof.
  split; (split; [try reflexivity; discriminate|]).
  - apply (proj1 (set_price_accepts_only_positive (S754_infinity false)
                    (new_Product "Book" (double 19)))).
    reflexivity.
  - apply (proj2 (set_price_accepts_only_positive S754_nan
                    (new_Product "Book" (double 19)))).
    discriminate.
Defined.

(** A product whose price is above zero keeps a price above zero through
    any assignment, accepted or rejected, and no assignment changes its
    title. *)
Theorem set_price_keeps_price_positive (val : number) (this : Product) :
  SFltb zero (_price this) = true ->
  SFltb zero (_price (snd (set_price val this))) = true /\
  title (snd (set_price val this)) = title this.
Proof.
  intros Hpos. unfold set_price.
  destruct (SFltb zero val) eqn:E; simpl; auto.
Qed.

Lemma set_price_keeps_price_positive_witness :
  SFltb zero (_price (new_Product "Book" (double 19))) = true /\
  (SFltb zero
     (_price (snd (set_price (double (-3)) (new_Product "Book" (double 19)))))
   = true /\
   title (snd (set_price (double (-3)) (new_Product "Book" (double 19))))
   = title (new_Product "Book" (double 19))).
Proof.
  split; [reflexivity|].
  apply (set_price_keeps_price_positive (double (-3))
           (new_Product "Book" (double 19))).
  reflexivity.
Defined.

(** ** The price with tax *)

Section TimesOne.

Lemma iter_pos_iter {A : Type} (f : A -> A) (n : positive) :
  forall x, SpecFloat.iter_pos f n x = Pos.iter f x n.
Proof.
  induction n; intros x; simpl; rewrite ?IHn; [|reflexivity..].
  now rewrite !Pos.iter_swap.
Qed.

Lemma mul_pow2 (m n : positive) :
  (Pos.iter xO 1 n * m = Pos.iter xO m n)%positive.
Proof.
  induction n using Pos.peano_ind.
  - reflexivity.
  - rewrite !Pos.iter_succ, <- IHn. reflexivity.
Qed.

Lemma digits2_pow2 (m n : positive) :
  digits2_pos (Pos.iter xO m n) = (digits2_pos m + n)%positive.
Proof.
  induction n using Pos.peano_ind.
  - simpl. lia.
  - rewrite Pos.iter_succ. simpl. rewrite IHn. lia.
Qed.

Lemma shr_pow2 (m n : positive) :
  SpecFloat.iter_pos shr_1 n (Build_shr_record (Zpos (Pos.iter xO m n)) false false)
  = Build_shr_record (Zpos m) false false.
Proof.
  rewrite iter_pos_iter.
  induction n using Pos.peano_ind.
  - reflexivity.
  - rewrite Pos.iter_succ_r, Pos.iter_succ. simpl shr_1. exact IHn.
Qed.

(** Rounding the product of a double by [1] gives the double back. *)
Lemma round_times_one (sx : bool) (mx : positive) (ex : Z) :
  bounded 53 1024 mx ex = true ->
  binary_round_aux 53 1024 sx
    (Zpos (mx * Pos.iter xO 1%positive 52)) (ex + -52) loc_Exact
  = S754_finite sx mx ex.
Proof.
  unfold bounded, canonical_mantissa. intros H.
  apply andb_prop in H. destruct H as [Hc Hb].
  apply Z.eqb_eq in Hc.
  rewrite Pos.mul_comm, mul_pow2.
  unfold binary_round_aux, shr_fexp.
  cbn [Zdigits2]. rewrite digits2_pow2.
  replace (Z.pos (digits2_pos mx + 52) + (ex + -52))%Z
    with (Z.pos (digits2_pos mx) + ex)%Z by lia.
  rewrite Hc.
  replace (ex - (ex + -52))%Z with 52%Z by lia.
  cbn [shr shr_record_of_loc].
  rewrite shr_pow2.
  cbn [shr_m loc_of_shr_record round_nearest_even Zdigits2].
  replace (ex + -52 + 52)%Z with ex by lia.
  rewrite Hc, Z.sub_diag. cbn [shr shr_m shr_record_of_loc].
  now rewrite Hb.
Qed.

End TimesOne.

(** With a tax of zero, of either sign, the price with tax is the price
    itself, bit for bit, for every double a product can hold: finite
    numbers, zeros, infinities and NaN. *)
Theorem getPriceWithTax_zero_tax (tax : number) (this : Product) :
  valid_binary 53 1024 (_price this) = true ->
  sign_of tax = Some Eq ->
  getPriceWithTax tax this = _price this.
Proof.
  intros Hvalid Htax. unfold getPriceWithTax.
  change (double 1)
    with (S754_finite false (Pos.iter xO 1%positive 52) (-52)).
  destruct tax as [s|s| |s m e]; try discriminate;
    [|destruct s; discriminate..].
  cbn [SFadd].
  destruct (_price this) as [sx|sx| |sx mx ex]; cbn [SFmul].
  - now rewrite xorb_false_r.
  - now rewrite xorb_false_r.
  - reflexivity.
  - rewrite xorb_false_r. now apply round_times_one.
Qed.

Lemma getPriceWithTax_zero_tax_witness :
  valid_binary 53 1024 (_price (new_Product "Book" (double 19))) = true /\
  sign_of zero = Some Eq /\
  getPriceWithTax zero (new_Product "Book" (double 19)) = double 19.
Proof.
  split; [reflexivity|]. split; [reflexivity|].
  apply (getPriceWithTax_zero_tax zero (new_Product "Book" (double 19)));
    reflexivity.
Defined.

(** ** Claim C8: what [validate] lets out *)



